(** * The package root of [qiskit_algorithms]

    The repository's source is a single Python module,
    [src/qiskit_algorithms/__init__.py]: a license header, the module
    docstring (an RST page listing the documented surface), a run of relative
    imports and the [__all__] list.

    The development has three layers.
    - [Source]: the text of the module, line by line.
    - [Text], [Python], [Rst], [Manifest]: a reader for the subset of Python
      and of reStructuredText the module is written in, and what the module
      binds and documents, all computed from the text.
    - [Job], [Driver]: the variational core that the package imports from
      sibling modules ([algorithm_job], [variational_algorithm] and the
      optimizers), whose code is outside this file; these are modelled from
      the specification. *)

From Stdlib Require Import String Ascii List Bool Arith Lia.
From Stdlib Require Import Permutation.
Import ListNotations.
Open Scope string_scope.

(** ** The source text *)

Module Source.

(** The double quote character, and the lines that carry it. *)
Definition dquote : string := String (ascii_of_nat 34) EmptyString.

Definition triple_quote : string := dquote ++ dquote ++ dquote.

Definition blank : string := EmptyString.

(** An element line of the [__all__] list: four spaces, the quoted name and
    a comma. *)
Definition quoted_item (name : string) : string :=
  "    " ++ dquote ++ name ++ dquote ++ ",".

(** [src/qiskit_algorithms/__init__.py], one entry per line (the file does
    not end in a newline: its last line is the closing bracket). *)
Definition init_py : list string := [
  "# This code is part of Qiskit.";
  "#";
  "# (C) Copyright IBM 2018, 2022.";
  "#";
  "# This code is licensed under the Apache License, Version 2.0. You may";
  "# obtain a copy of this license in the LICENSE.txt file in the root directory";
  "# of this source tree or at http://www.apache.org/licenses/LICENSE-2.0.";
  "#";
  "# Any modifications or derivative works of this code must retain this";
  "# copyright notice, and modified files need to carry a notice indicating";
  "# that they have been altered from the originals.";
  blank;
  triple_quote;
  "=====================================";
  "Algorithms (:mod:`qiskit_algorithms`)";
  "=====================================";
  "It contains a collection of quantum algorithms, for use with quantum computers, to";
  "carry out research and investigate how to solve problems in different domains on";
  "near-term quantum devices with short depth circuits.";
  blank;
  "Algorithms configuration includes the use of :mod:`~qiskit_algorithms.optimizers` which";
  "were designed to be swappable sub-parts of an algorithm. Any component and may be exchanged for";
  "a different implementation of the same component type in order to potentially alter the behavior";
  "and outcome of the algorithm.";
  blank;
  "Quantum algorithms are run via a :class:`~qiskit_algorithms.QuantumInstance`";
  "which must be set with the";
  "desired backend where the algorithm's circuits will be executed and be configured with a number of";
  "compile and runtime parameters controlling circuit compilation and execution. It ultimately uses";
  "`Terra <https://www.qiskit.org/terra>`__ for the actual compilation and execution of the quantum";
  "circuits created by the algorithm and its components.";
  blank;
  ".. currentmodule:: qiskit_algorithms";
  blank;
  "Algorithms";
  "==========";
  blank;
  "It contains a variety of quantum algorithms and these have been grouped by logical function such";
  "as minimum eigensolvers and amplitude amplifiers.";
  blank;
  blank;
  "Amplitude Amplifiers";
  "--------------------";
  blank;
  ".. autosummary::";
  "   :toctree: ../stubs/";
  "   :nosignatures:";
  blank;
  "   AmplificationProblem";
  "   AmplitudeAmplifier";
  "   Grover";
  "   GroverResult";
  blank;
  blank;
  "Amplitude Estimators";
  "--------------------";
  blank;
  ".. autosummary::";
  "   :toctree: ../stubs/";
  "   :nosignatures:";
  blank;
  "   AmplitudeEstimator";
  "   AmplitudeEstimatorResult";
  "   AmplitudeEstimation";
  "   AmplitudeEstimationResult";
  "   EstimationProblem";
  "   FasterAmplitudeEstimation";
  "   FasterAmplitudeEstimationResult";
  "   IterativeAmplitudeEstimation";
  "   IterativeAmplitudeEstimationResult";
  "   MaximumLikelihoodAmplitudeEstimation";
  "   MaximumLikelihoodAmplitudeEstimationResult";
  blank;
  blank;
  "Eigensolvers";
  "------------";
  blank;
  "Algorithms to find eigenvalues of an operator. For chemistry these can be used to find excited";
  "states of a molecule, and ``qiskit-nature`` has some algorithms that leverage chemistry specific";
  "knowledge to do this in that application domain.";
  blank;
  "Primitive-based Eigensolvers";
  "++++++++++++++++++++++++++++";
  blank;
  "These algorithms are based on the Qiskit Primitives, a new execution paradigm that replaces the use";
  "of :class:`.QuantumInstance` in algorithms. To ensure continued support and development, we recommend";
  "using the primitive-based Eigensolvers in place of the legacy :class:`.QuantumInstance`-based ones.";
  blank;
  ".. autosummary::";
  "   :toctree: ../stubs/";
  blank;
  "   eigensolvers";
  blank;
  blank;
  "Legacy Eigensolvers";
  "+++++++++++++++++++";
  blank;
  "These algorithms, still based on the :class:`.QuantumInstance`, are superseded";
  "by the primitive-based versions in the section above but are still supported for now.";
  blank;
  ".. autosummary::";
  "   :toctree: ../stubs/";
  "   :nosignatures:";
  blank;
  "   Eigensolver";
  "   EigensolverResult";
  "   NumPyEigensolver";
  "   VQD";
  "   VQDResult";
  blank;
  blank;
  "Time Evolvers";
  "-------------";
  blank;
  "Algorithms to evolve quantum states in time. Both real and imaginary time evolution is possible";
  "with algorithms that support them. For machine learning, Quantum Imaginary Time Evolution might be";
  "used to train Quantum Boltzmann Machine Neural Networks for example.";
  blank;
  "Primitive-based Time Evolvers";
  "+++++++++++++++++++++++++++++";
  blank;
  "These algorithms are based on the Qiskit Primitives, a new execution paradigm that replaces the use";
  "of :class:`.QuantumInstance` in algorithms. To ensure continued support and development, we recommend";
  "using the primitive-based Time Evolvers in place of the legacy :class:`.QuantumInstance`-based ones.";
  blank;
  ".. autosummary::";
  "   :toctree: ../stubs/";
  "   :nosignatures:";
  blank;
  "   RealTimeEvolver";
  "   ImaginaryTimeEvolver";
  "   TimeEvolutionResult";
  "   TimeEvolutionProblem";
  "   PVQD";
  "   PVQDResult";
  "   SciPyImaginaryEvolver";
  "   SciPyRealEvolver";
  "   VarQITE";
  "   VarQRTE";
  blank;
  "Legacy Time Evolvers";
  "++++++++++++++++++++";
  blank;
  "These algorithms, still based on the :class:`.QuantumInstance`, are superseded";
  "by the primitive-based versions in the section above but are still supported for now.";
  blank;
  ".. autosummary::";
  "   :toctree: ../stubs/";
  "   :nosignatures:";
  blank;
  "    RealEvolver";
  "    ImaginaryEvolver";
  "    TrotterQRTE";
  "    EvolutionResult";
  "    EvolutionProblem";
  blank;
  blank;
  "Variational Quantum Time Evolution";
  "++++++++++++++++++++++++++++++++++";
  blank;
  "Classes used by variational quantum time evolution algorithms - :class:`.VarQITE` and";
  ":class:`.VarQRTE`.";
  blank;
  ".. autosummary::";
  "   :toctree: ../stubs/";
  blank;
  "   time_evolvers.variational";
  blank;
  blank;
  "Trotterization-based Quantum Real Time Evolution";
  "++++++++++++++++++++++++++++++++++++++++++++++++";
  blank;
  "Package for primitives-enabled Trotterization-based quantum time evolution";
  "algorithm - :class:`~.time_evolvers.TrotterQRTE`.";
  blank;
  ".. autosummary::";
  "   :toctree: ../stubs/";
  blank;
  "   time_evolvers.trotterization";
  blank;
  blank;
  "Gradients";
  "----------";
  blank;
  "Algorithms to calculate the gradient of a quantum circuit.";
  blank;
  ".. autosummary::";
  "   :toctree: ../stubs/";
  blank;
  "   gradients";
  blank;
  blank;
  "Minimum Eigensolvers";
  "---------------------";
  blank;
  "Algorithms that can find the minimum eigenvalue of an operator.";
  blank;
  "Primitive-based Minimum Eigensolvers";
  "++++++++++++++++++++++++++++++++++++";
  blank;
  "These algorithms are based on the Qiskit Primitives, a new execution paradigm that replaces the use";
  "of :class:`.QuantumInstance` in algorithms. To ensure continued support and development, we recommend";
  "using the primitive-based Minimum Eigensolvers in place of the legacy :class:`.QuantumInstance`-based";
  "ones.";
  blank;
  ".. autosummary::";
  "   :toctree: ../stubs/";
  blank;
  "   minimum_eigensolvers";
  blank;
  blank;
  "Legacy Minimum Eigensolvers";
  "+++++++++++++++++++++++++++";
  blank;
  "These algorithms, still based on the :class:`.QuantumInstance`, are superseded";
  "by the primitive-based versions in the section above but are still supported for now.";
  blank;
  ".. autosummary::";
  "   :toctree: ../stubs/";
  "   :nosignatures:";
  blank;
  "   MinimumEigensolver";
  "   MinimumEigensolverResult";
  "   NumPyMinimumEigensolver";
  "   QAOA";
  "   VQE";
  blank;
  blank;
  "Optimizers";
  "----------";
  blank;
  "Classical optimizers for use by quantum variational algorithms.";
  blank;
  ".. autosummary::";
  "   :toctree: ../stubs/";
  blank;
  "   optimizers";
  blank;
  blank;
  "Phase Estimators";
  "----------------";
  blank;
  "Algorithms that estimate the phases of eigenstates of a unitary.";
  blank;
  ".. autosummary::";
  "   :toctree: ../stubs/";
  "   :nosignatures:";
  blank;
  "   HamiltonianPhaseEstimation";
  "   HamiltonianPhaseEstimationResult";
  "   PhaseEstimationScale";
  "   PhaseEstimation";
  "   PhaseEstimationResult";
  "   IterativePhaseEstimation";
  blank;
  blank;
  "State Fidelities";
  "----------------";
  blank;
  "Algorithms that compute the fidelity of pairs of quantum states.";
  blank;
  ".. autosummary::";
  "   :toctree: ../stubs/";
  blank;
  "   state_fidelities";
  blank;
  blank;
  "Exceptions";
  "----------";
  blank;
  ".. autosummary::";
  "   :toctree: ../stubs/";
  blank;
  "   AlgorithmError";
  blank;
  blank;
  "Utility methods";
  "---------------";
  blank;
  "Utility methods used by algorithms.";
  blank;
  ".. autosummary::";
  "   :toctree: ../stubs/";
  blank;
  "   eval_observables";
  "   estimate_observables";
  blank;
  blank;
  "Utility classes";
  "---------------";
  blank;
  "Utility classes used by algorithms (mainly for type-hinting purposes).";
  blank;
  ".. autosummary::";
  "   :toctree: ../stubs/";
  blank;
  "   AlgorithmJob";
  blank;
  triple_quote;
  "from .algorithm_job import AlgorithmJob";
  "from .algorithm_result import AlgorithmResult";
  "from .variational_algorithm import VariationalAlgorithm, VariationalResult";
  "from .amplitude_amplifiers import Grover, GroverResult, AmplificationProblem, AmplitudeAmplifier";
  "from .amplitude_estimators import (";
  "    AmplitudeEstimator,";
  "    AmplitudeEstimatorResult,";
  "    AmplitudeEstimation,";
  "    AmplitudeEstimationResult,";
  "    FasterAmplitudeEstimation,";
  "    FasterAmplitudeEstimationResult,";
  "    IterativeAmplitudeEstimation,";
  "    IterativeAmplitudeEstimationResult,";
  "    MaximumLikelihoodAmplitudeEstimation,";
  "    MaximumLikelihoodAmplitudeEstimationResult,";
  "    EstimationProblem,";
  ")";
  blank;
  "from .phase_estimators import (";
  "    HamiltonianPhaseEstimation,";
  "    HamiltonianPhaseEstimationResult,";
  "    PhaseEstimationScale,";
  "    PhaseEstimation,";
  "    PhaseEstimationResult,";
  "    IterativePhaseEstimation,";
  ")";
  "from .exceptions import AlgorithmError";
  "from .observables_evaluator import estimate_observables";
  blank;
  "from .time_evolvers import (";
  "    ImaginaryTimeEvolver,";
  "    RealTimeEvolver,";
  "    TimeEvolutionProblem,";
  "    TimeEvolutionResult,";
  "    PVQD,";
  "    PVQDResult,";
  "    SciPyImaginaryEvolver,";
  "    SciPyRealEvolver,";
  "    VarQITE,";
  "    VarQRTE,";
  "    VarQTE,";
  "    VarQTEResult,";
  ")";
  blank;
  "__all__ = [";
  quoted_item "AlgorithmJob";
  quoted_item "AlgorithmResult";
  quoted_item "VariationalAlgorithm";
  quoted_item "VariationalResult";
  quoted_item "AmplitudeAmplifier";
  quoted_item "AmplificationProblem";
  quoted_item "Grover";
  quoted_item "GroverResult";
  quoted_item "AmplitudeEstimator";
  quoted_item "AmplitudeEstimatorResult";
  quoted_item "AmplitudeEstimation";
  quoted_item "AmplitudeEstimationResult";
  quoted_item "FasterAmplitudeEstimation";
  quoted_item "FasterAmplitudeEstimationResult";
  quoted_item "IterativeAmplitudeEstimation";
  quoted_item "IterativeAmplitudeEstimationResult";
  quoted_item "MaximumLikelihoodAmplitudeEstimation";
  quoted_item "MaximumLikelihoodAmplitudeEstimationResult";
  quoted_item "EstimationProblem";
  quoted_item "RealTimeEvolver";
  quoted_item "ImaginaryTimeEvolver";
  quoted_item "TimeEvolutionResult";
  quoted_item "TimeEvolutionProblem";
  quoted_item "HamiltonianPhaseEstimation";
  quoted_item "HamiltonianPhaseEstimationResult";
  quoted_item "PhaseEstimationScale";
  quoted_item "PhaseEstimation";
  quoted_item "PhaseEstimationResult";
  quoted_item "PVQD";
  quoted_item "PVQDResult";
  quoted_item "SciPyRealEvolver";
  quoted_item "SciPyImaginaryEvolver";
  quoted_item "IterativePhaseEstimation";
  quoted_item "AlgorithmError";
  quoted_item "estimate_observables";
  quoted_item "VarQITE";
  quoted_item "VarQRTE";
  quoted_item "VarQTE";
  quoted_item "VarQTEResult";
  "]"
].

End Source.

(** ** Strings *)

Module Text.

Definition is_space (c : ascii) : bool := Ascii.eqb c " "%char.

Fixpoint lstrip (s : string) : string :=
  match s with
  | String c s' => if is_space c then lstrip s' else s
  | EmptyString => s
  end.

Definition reverse (s : string) : string :=
  string_of_list_ascii (rev (list_ascii_of_string s)).

Definition rstrip (s : string) : string := reverse (lstrip (reverse s)).

(** Python's [str.strip] for spaces. *)
Definition strip (s : string) : string := rstrip (lstrip s).

Definition is_blank (s : string) : bool := String.eqb (lstrip s) EmptyString.

Definition starts_with (p s : string) : bool := String.prefix p s.

Definition ends_with (p s : string) : bool :=
  String.prefix (reverse p) (reverse s).

Fixpoint drop (n : nat) (s : string) : string :=
  match n, s with
  | S n', String _ s' => drop n' s'
  | _, _ => s
  end.

(** [partition sep s]: the text before and after the first occurrence of
    [sep] in [s] (Python's [str.partition], [None] when [sep] is absent). *)
Fixpoint partition (sep s : string) : option (string * string) :=
  if starts_with sep s then Some (EmptyString, drop (String.length sep) s)
  else match s with
       | EmptyString => None
       | String c s' =>
           match partition sep s' with
           | Some (a, b) => Some (String c a, b)
           | None => None
           end
       end.

Definition contains (needle s : string) : bool :=
  match partition needle s with Some _ => true | None => false end.

(** [split sep s] = Python's [s.split(sep)] for a one-character separator. *)
Fixpoint split_acc (sep : ascii) (acc : string) (s : string) : list string :=
  match s with
  | EmptyString => [reverse acc]
  | String c s' =>
      if Ascii.eqb c sep then reverse acc :: split_acc sep EmptyString s'
      else split_acc sep (String c acc) s'
  end.

Definition split (sep : ascii) (s : string) : list string :=
  split_acc sep EmptyString s.

(** The comma-separated, stripped, non-empty fields of a line. *)
Definition fields (s : string) : list string :=
  filter (fun f => negb (String.eqb f EmptyString)) (map strip (split ","%char s)).

(** Number of leading characters of [s] equal to [c]. *)
Fixpoint count_leading (c : ascii) (s : string) : nat :=
  match s with
  | String d s' => if Ascii.eqb c d then S (count_leading c s') else 0
  | EmptyString => 0
  end.

Fixpoint all_chars (p : ascii -> bool) (s : string) : bool :=
  match s with
  | String c s' => p c && all_chars p s'
  | EmptyString => true
  end.

Definition mem (x : string) (l : list string) : bool :=
  existsb (String.eqb x) l.

Fixpoint nodupb (l : list string) : bool :=
  match l with
  | [] => true
  | x :: l' => negb (mem x l') && nodupb l'
  end.

End Text.

(** ** The Python subset of the module *)

Module Python.
Import Text.

(** Module-level statements.  A string-literal expression statement is the
    module docstring when it is the first statement.  [FunctionDef],
    [ClassDef] and [Other] are what any further top-level line would parse
    to. *)
Inductive stmt : Type :=
| ExprString (body : list string)
| ImportFrom (level : nat) (module : string) (names : list string)
| AssignList (target : string) (elts : list string)
| FunctionDef (header : string)
| ClassDef (header : string)
| Other (text : string).

(** A statement with the lines it spans (1-based, inclusive). *)
Record located : Type := Located {
  first_line : nat;
  last_line : nat;
  node : stmt
}.

(** What the reader is in the middle of. *)
Inductive mode : Type :=
| Top
| InString (start : nat) (acc : list string)
| InImport (start : nat) (level : nat) (module : string) (acc : list string)
| InList (start : nat) (target : string) (acc : list string).

Record pstate : Type := PState {
  lineno : nat;          (* number of the line being read *)
  cur : mode;
  out : list located     (* statements read so far, last first *)
}.

Definition is_comment (l : string) : bool := starts_with "#" (lstrip l).

(** The name an import item binds: [a as b] binds [b]. *)
Definition bound_name (item : string) : string :=
  match partition " as " item with
  | Some (_, alias) => strip alias
  | None => item
  end.

(** A quoted list element without its quotes (other elements unchanged). *)
Definition unquote (item : string) : string :=
  if starts_with Source.dquote item && ends_with Source.dquote item
     && Nat.leb 2 (String.length item)
  then reverse (drop 1 (reverse (drop 1 item)))
  else item.

(** A line read at top level: either a whole statement or the start of a
    multi-line one. *)
Definition read_top (n : nat) (l : string) : mode * list located :=
  if is_blank l || is_comment l then (Top, [])
  else if String.eqb l Source.triple_quote then (InString n [], [])
  else if starts_with "from " l then
    match partition " import " (drop 5 l) with
    | Some (path, items) =>
        let level := count_leading "."%char path in
        let module := drop level path in
        if String.eqb (strip items) "(" then (InImport n level module [], [])
        else (Top, [Located n n (ImportFrom level module (map bound_name (fields items)))])
    | None => (Top, [Located n n (Other l)])
    end
  else if starts_with "def " l || starts_with "async def " l then
    (Top, [Located n n (FunctionDef l)])
  else if starts_with "class " l then (Top, [Located n n (ClassDef l)])
  else if ends_with " = [" l then
    (InList n (reverse (drop 4 (reverse l))) [], [])
  else (Top, [Located n n (Other l)]).

Definition read_line (st : pstate) (l : string) : pstate :=
  let n := lineno st in
  match cur st with
  | Top =>
      let '(m, emitted) := read_top n l in
      PState (S n) m (emitted ++ out st)
  | InString start acc =>
      if String.eqb l Source.triple_quote
      then PState (S n) Top (Located start n (ExprString (rev acc)) :: out st)
      else PState (S n) (InString start (l :: acc)) (out st)
  | InImport start level module acc =>
      if String.eqb (strip l) ")"
      then PState (S n) Top
             (Located start n (ImportFrom level module (rev acc)) :: out st)
      else PState (S n)
             (InImport start level module (rev (map bound_name (fields l)) ++ acc))
             (out st)
  | InList start target acc =>
      if String.eqb (strip l) "]"
      then PState (S n) Top (Located start n (AssignList target (rev acc)) :: out st)
      else PState (S n)
             (InList start target (rev (map unquote (fields l)) ++ acc))
             (out st)
  end.

(** The statements of a file, or [None] when it ends inside a statement. *)
Definition parse (lines : list string) : option (list located) :=
  let st := fold_left read_line lines (PState 1 Top []) in
  match cur st with
  | Top => Some (rev (out st))
  | _ => None
  end.

(** Statement kinds. *)
Definition is_import (s : stmt) : bool :=
  match s with ImportFrom _ _ _ => true | _ => false end.

Definition is_expr_string (s : stmt) : bool :=
  match s with ExprString _ => true | _ => false end.

Definition is_all_assignment (s : stmt) : bool :=
  match s with AssignList t _ => String.eqb t "__all__" | _ => false end.

Definition is_def (s : stmt) : bool :=
  match s with FunctionDef _ | ClassDef _ => true | _ => false end.

(** The docstring of a module: its first statement, when a string. *)
Definition docstring (m : list located) : list string :=
  match m with
  | Located _ _ (ExprString body) :: _ => body
  | _ => []
  end.

(** Names bound by the [from ... import ...] statements. *)
Definition imported_names (m : list located) : list string :=
  flat_map (fun s => match node s with ImportFrom _ _ ns => ns | _ => [] end) m.

(** Names imported from one given module. *)
Definition imported_from (level : nat) (module : string) (m : list located) : list string :=
  flat_map (fun s => match node s with
                     | ImportFrom lv md ns =>
                         if Nat.eqb lv level && String.eqb md module then ns else []
                     | _ => []
                     end) m.

(** The value of [__all__]: the last assignment to it wins. *)
Definition dunder_all (m : list located) : list string :=
  fold_left (fun acc s => match node s with
                          | AssignList t es => if String.eqb t "__all__" then es else acc
                          | _ => acc
                          end) m [].

(** *** The namespace the module body builds *)

Inductive value : Type :=
| VString (body : list string)
| VImported (level : nat) (module : string) (name : string)
| VSubmodule (name : string)
| VList (elts : list string).

Definition namespace : Type := list (string * value).

Definition bind (n : string) (v : value) (ns : namespace) : namespace :=
  (n, v) :: filter (fun b => negb (String.eqb (fst b) n)) ns.

Definition getattr (ns : namespace) (n : string) : option value :=
  match find (fun b => String.eqb (fst b) n) ns with
  | Some (_, v) => Some v
  | None => None
  end.

(** The first component of a dotted module path. *)
Definition head_component (module : string) : string :=
  match partition "." module with
  | Some (h, _) => h
  | None => module
  end.

(** Executing one statement: the bindings this statement itself makes.  A
    relative import of a submodule also leaves the submodule as an attribute
    of the package, before the imported names are bound.  What the imported
    submodule does when it loads (it may import further siblings, which then
    become attributes of the package too, or fail) is outside the file and
    is not modelled. *)
Definition exec_stmt (first : bool) (ns : namespace) (s : stmt) : namespace :=
  match s with
  | ExprString body => if first then bind "__doc__" (VString body) ns else ns
  | ImportFrom level module names =>
      let ns' :=
        if Nat.eqb level 1 && negb (String.eqb module EmptyString)
        then bind (head_component module) (VSubmodule (head_component module)) ns
        else ns in
      fold_left (fun acc n => bind n (VImported level module n) acc) names ns'
  | AssignList target elts => bind target (VList elts) ns
  | FunctionDef _ | ClassDef _ | Other _ => ns
  end.

Fixpoint exec_from (first : bool) (ns : namespace) (m : list located) : namespace :=
  match m with
  | [] => ns
  | s :: m' => exec_from false (exec_stmt first ns (node s)) m'
  end.

Definition exec_module (m : list located) : namespace := exec_from true [] m.

(** [from package import n]: the attribute [n] of the package if bound, and
    otherwise a submodule of that name, if the package has one. *)
Definition import_from (submodules : list string) (ns : namespace) (n : string) : bool :=
  match getattr ns n with
  | Some _ => true
  | None => mem n submodules
  end.

(** The names of a list looked up in a namespace, in order; [None] when
    one of them is not bound (an [AttributeError]). *)
Fixpoint lookup_all (ns : namespace) (names : list string) : option (list (string * value)) :=
  match names with
  | [] => Some []
  | n :: names' =>
      match getattr ns n, lookup_all ns names' with
      | Some v, Some bs => Some ((n, v) :: bs)
      | _, _ => None
      end
  end.

(** [from package import *]: with [__all__] a list, its names, each of which
    must be bound; without [__all__], the bound names that do not start
    with an underscore. *)
Definition star_import (ns : namespace) : option (list (string * value)) :=
  match getattr ns "__all__" with
  | Some (VList names) => lookup_all ns names
  | Some _ => None
  | None => Some (filter (fun b => negb (starts_with "_" (fst b))) ns)
  end.

(** The level and module path of each [from ... import ...] statement. *)
Definition import_sources (m : list located) : list (nat * string) :=
  flat_map (fun s => match node s with
                     | ImportFrom lv md _ => [(lv, md)]
                     | _ => []
                     end) m.

(** Line [n] lies outside every statement of [m]. *)
Definition outside (m : list located) (n : nat) : bool :=
  negb (existsb (fun s => Nat.leb (first_line s) n && Nat.leb n (last_line s)) m).

(** The lines of a file with their numbers, from 1. *)
Definition numbered (lines : list string) : list (nat * string) :=
  combine (seq 1 (List.length lines)) lines.

(** Every line outside the statements of [m] is blank or a comment. *)
Definition only_trivia_outside (m : list located) (lines : list string) : bool :=
  forallb (fun nl => implb (outside m (fst nl)) (is_blank (snd nl) || is_comment (snd nl)))
          (numbered lines).

End Python.

(** ** The reStructuredText subset of the docstring *)

Module Rst.
Import Text.

(** A section adornment: a non-empty line made of one repeated punctuation
    character of the ones used for titles. *)
Definition adornment (l : string) : option ascii :=
  match l with
  | String c rest =>
      if mem (String c EmptyString) ["="; "-"; "+"; "~"; "^"]
         && all_chars (Ascii.eqb c) rest
      then Some c else None
  | EmptyString => None
  end.

(** [l] is a section title when the next line [u] underlines it: the
    adornment character, if so. *)
Definition title_adornment (l u : string) : option ascii :=
  if is_blank l || starts_with " " l then None
  else match adornment l, adornment u with
       | None, Some c => if String.length l <=? String.length u then Some c else None
       | _, _ => None
       end%nat.

Record sect : Type := MkSect {
  mark : ascii;            (* the adornment character of the title *)
  title : string;
  body : list string       (* the lines up to the next title *)
}.

Definition close (cur : option (ascii * string)) (acc : list string) : list sect :=
  match cur with
  | Some (c, t) => [MkSect c t (rev acc)]
  | None => []
  end.

(** The titled sections of a page, in order; text before the first title
    belongs to no section. *)
Fixpoint sections_from (cur : option (ascii * string)) (acc : list string)
    (ls : list string) {struct ls} : list sect :=
  match ls with
  | [] => close cur acc
  | l :: rest =>
      match rest with
      | u :: rest' =>
          match title_adornment l u with
          | Some c => close cur acc ++ sections_from (Some (c, l)) [] rest'
          | None => sections_from cur (l :: acc) rest
          end
      | [] => close cur (l :: acc)
      end
  end.

Definition sections (page : list string) : list sect := sections_from None [] page.

(** The entries of the [autosummary] directives among some lines: the
    indented, non-option lines of each directive's block. *)
Fixpoint autosummary_entries (inblock : bool) (ls : list string) : list string :=
  match ls with
  | [] => []
  | l :: rest =>
      if String.eqb (strip l) ".. autosummary::" then autosummary_entries true rest
      else if is_blank l then autosummary_entries inblock rest
      else if inblock && starts_with " " l then
        if starts_with ":" (strip l) then autosummary_entries true rest
        else strip l :: autosummary_entries true rest
      else autosummary_entries false rest
  end.

Definition entries (s : sect) : list string := autosummary_entries false (body s).

(** Adornment characters in order of first use: the position of a character
    is the depth of the sections it marks. *)
Fixpoint marks_in_order (seen : list ascii) (ss : list sect) : list ascii :=
  match ss with
  | [] => rev seen
  | s :: ss' =>
      if existsb (Ascii.eqb (mark s)) seen then marks_in_order seen ss'
      else marks_in_order (mark s :: seen) ss'
  end.

Fixpoint position (c : ascii) (l : list ascii) : nat :=
  match l with
  | [] => 0
  | d :: l' => if Ascii.eqb c d then 0 else S (position c l')
  end.

Definition depth (order : list ascii) (s : sect) : nat := position (mark s) order.

Fixpoint take_while {A : Type} (p : A -> bool) (l : list A) : list A :=
  match l with
  | [] => []
  | x :: l' => if p x then x :: take_while p l' else []
  end.

Fixpoint subsections_from (order : list ascii) (parent : string) (ss : list sect) : list sect :=
  match ss with
  | [] => []
  | s :: ss' =>
      if String.eqb (title s) parent
      then take_while (fun x => depth order s <? depth order x)%nat ss'
      else subsections_from order parent ss'
  end.

(** The sections nested under the first section titled [parent]. *)
Definition subsections (parent : string) (ss : list sect) : list sect :=
  subsections_from (marks_in_order [] ss) parent ss.

(** Some line of the section's body contains [word]. *)
Definition mentions (word : string) (s : sect) : bool :=
  existsb (contains word) (body s).

End Rst.

(** ** The package root: what it binds, exports and documents *)

Module Manifest.
Import Text.

(** The statements of [__init__.py]. *)
Definition module_ast : list Python.located :=
  match Python.parse Source.init_py with
  | Some m => m
  | None => []
  end.

Definition __doc__ : list string := Python.docstring module_ast.

Definition __all__ : list string := Python.dunder_all module_ast.

Definition imported : list string := Python.imported_names module_ast.

(** A name is exported by the package root when a module-level import binds
    it and [__all__] lists it. *)
Definition exported (n : string) : bool := mem n imported && mem n __all__.

(** The attributes of the package once its body has run. *)
Definition package : Python.namespace := Python.exec_module module_ast.

(** The sections of the documentation page and the names it lists. *)
Definition doc_sections : list Rst.sect := Rst.sections __doc__.

Definition documented_names : list string := flat_map Rst.entries doc_sections.

Definition documented (n : string) : bool := mem n documented_names.

Definition documented_in (section n : string) : bool :=
  existsb (fun s => String.eqb (Rst.title s) section && mem n (Rst.entries s)) doc_sections.

(** The exception types of the package root: what it imports from its
    [exceptions] module. *)
Definition exception_types : list string :=
  Python.imported_from 1 "exceptions" module_ast.

(** The error kinds of the specification's taxonomy. *)
Definition taxonomy : list string :=
  ["SubmissionError"; "ExecutionFailure"; "CancellationError"; "TimeoutError";
   "ConvergenceFailure"; "BudgetExceeded"].

(** The algorithm families documented in two generations. *)
Definition families : list string :=
  ["Eigensolvers"; "Time Evolvers"; "Minimum Eigensolvers"].

(** A group of [family]: a section nested under the family's section, with
    the given title prefix, that lists at least one entry. *)
Definition is_group (prefix family : string) (s : Rst.sect) : Prop :=
  In s (Rst.subsections family doc_sections) /\
  Rst.title s = prefix ++ " " ++ family /\
  Rst.entries s <> [].

(** [n] is an entry of a section whose title starts with "Legacy". *)
Definition in_legacy_section (n : string) : bool :=
  existsb (fun s => starts_with "Legacy " (Rst.title s) && mem n (Rst.entries s))
          doc_sections.

(** The entry starts with a capital letter: a class, as opposed to a
    function or a subpackage. *)
Definition is_capitalised (n : string) : bool :=
  match n with
  | String c _ => Nat.leb 65 (nat_of_ascii c) && Nat.leb (nat_of_ascii c) 90
  | EmptyString => false
  end.

(** The group of [family] with the given title prefix, if documented. *)
Definition group (prefix family : string) : option Rst.sect :=
  find (fun s => String.eqb (Rst.title s) (prefix ++ " " ++ family))
       (Rst.subsections family doc_sections).

(** The docstring refers to [n] as a class of the package, through a
    [:class:] role. *)
Definition class_referenced (n : string) : bool :=
  existsb (fun l => contains (":class:`~qiskit_algorithms." ++ n ++ "`") l
                    || contains (":class:`." ++ n ++ "`") l) __doc__.

(** The algorithms and the job abstraction the specification reads off the
    declared surface. *)
Definition declared_algorithms : list string :=
  ["VQE"; "QAOA"; "VarQITE"; "VarQRTE"; "PVQD"; "AlgorithmJob"].

(** Names the docstring lists in an [autosummary] and the root does not
    deliver, and the class its prose refers to. *)
Definition listed_not_delivered : list string :=
  ["VQE"; "QAOA"; "VQD"; "Eigensolver"; "NumPyEigensolver"; "MinimumEigensolver";
   "NumPyMinimumEigensolver"; "TrotterQRTE"; "eval_observables"].

Definition referenced_not_delivered : string := "QuantumInstance".

End Manifest.

(** ** The evaluation job *)

Module Job.

(** Modelled from the spec: the Evaluation Job behind [AlgorithmJob], which
    the package root imports from its [algorithm_job] module; that module is
    not part of the source at hand.  The specification gives the states
    [PENDING -> RUNNING -> {DONE, FAILED, CANCELLED}], attaches a Result
    Payload on [RUNNING -> DONE] and makes terminal states immutable. *)
Inductive state : Type := PENDING | RUNNING | DONE | FAILED | CANCELLED.

Definition terminal (s : state) : bool :=
  match s with
  | DONE | FAILED | CANCELLED => true
  | PENDING | RUNNING => false
  end.

(** The arrows of the specification's state diagram. *)
Definition edge (a b : state) : bool :=
  match a, b with
  | PENDING, RUNNING => true
  | RUNNING, DONE | RUNNING, FAILED | RUNNING, CANCELLED => true
  | _, _ => false
  end.

Section Jobs.

Variables Request Payload Failure : Type.

(** A job owns one request; the payload comes with [DONE], the captured
    cause with [FAILED]. *)
Record job : Type := MkJob {
  request : Request;
  status : state;
  payload : option Payload;
  cause : option Failure
}.

(** What can happen to a job: the backend starts it, completes it with a
    payload or fails it with a cause, or the client cancels it. *)
Inductive event : Type :=
| Start
| Complete (p : Payload)
| Fail (c : Failure)
| Cancel.

Definition submit (r : Request) : job := MkJob r PENDING None None.

(** Modelled from the spec: one event on a job of [algorithm_job], along
    the arrows of the state diagram.  An event that the current state has
    no arrow for leaves the job as it is. *)
Definition step (j : job) (e : event) : job :=
  match status j, e with
  | PENDING, Start => MkJob (request j) RUNNING (payload j) (cause j)
  | RUNNING, Complete p => MkJob (request j) DONE (Some p) (cause j)
  | RUNNING, Fail c => MkJob (request j) FAILED (payload j) (Some c)
  | RUNNING, Cancel => MkJob (request j) CANCELLED (payload j) (cause j)
  | _, _ => j
  end.

Definition run (j : job) (es : list event) : job := fold_left step es j.

(** [Job.done()]: non-blocking. *)
Definition done (j : job) : bool := terminal (status j).

(** [Job.cancel()]: best effort; the flag tells whether the cancellation
    took effect before completion. *)
Definition cancel (j : job) : job * bool :=
  let j' := step j Cancel in
  (j', match status j, status j' with
       | RUNNING, CANCELLED => true
       | _, _ => false
       end).

(** The payload is present exactly in state [DONE]. *)
Definition payload_iff_done (j : job) : Prop :=
  payload j <> None <-> status j = DONE.

End Jobs.

Arguments MkJob {Request Payload Failure}.
Arguments request {Request Payload Failure}.
Arguments status {Request Payload Failure}.
Arguments payload {Request Payload Failure}.
Arguments cause {Request Payload Failure}.
Arguments Start {Payload Failure}.
Arguments Complete {Payload Failure}.
Arguments Fail {Payload Failure}.
Arguments Cancel {Payload Failure}.
Arguments submit {Request Payload Failure}.
Arguments step {Request Payload Failure}.
Arguments run {Request Payload Failure}.
Arguments done {Request Payload Failure}.
Arguments cancel {Request Payload Failure}.
Arguments payload_iff_done {Request Payload Failure}.

End Job.

(** ** The variational driver *)

Module Driver.

Local Open Scope nat_scope.
Local Open Scope list_scope.

(** Modelled from the spec: the Variational Algorithm Driver and the
    optimizer contract behind [VariationalAlgorithm], which the package root
    imports from [variational_algorithm]; neither that module nor the
    optimizers are part of the source at hand.  The specification has the
    driver intercept each objective or gradient call of the optimizer, check
    the budgets before the optimizer proceeds to its next trial point, and
    end in one of [CONVERGED], [MAX_ITER], [MAX_EVALS], [FAILED]. *)
Inductive status : Type := CONVERGED | MAX_ITER | MAX_EVALS | FAILED.

Section Run.

Variables Point Payload OptState : Type.

(** Length of a parameter vector. *)
Variable dim : Point -> nat.

(** What the optimizer asks the driver for. *)
Inductive call : Type :=
| Objective (theta : Point)
| Gradient (theta : Point)
| Batch (thetas : list Point).

(** An evaluation request: the objective at a point, or at a point with
    parameter [i] shifted up or down. *)
Inductive request : Type :=
| Value (theta : Point)
| Shifted (theta : Point) (i : nat) (up : bool).

(** The plan of a call: its evaluation jobs, in request order.  A gradient
    takes two shifted evaluations per parameter, a batch one per element. *)
Definition plan (c : call) : list request :=
  match c with
  | Objective theta => [Value theta]
  | Gradient theta =>
      flat_map (fun i => [Shifted theta i true; Shifted theta i false]) (seq 0 (dim theta))
  | Batch thetas => map Value thetas
  end.

(** The optimizer, as the driver sees it: from its state it either stops
    (converged) or makes its next call, and it is then told the payloads. *)
Inductive decision : Type :=
| Stop
| Ask (c : call).

Variable ask : OptState -> decision.
Variable tell : OptState -> call -> list Payload -> OptState.

(** The execution backend: the payload of a job, or [None] when it fails. *)
Variable backend : request -> option Payload.

(** All payloads of a fan-out, in request order; a failure in any of them
    fails the whole. *)
Fixpoint collect (rs : list (option Payload)) : option (list Payload) :=
  match rs with
  | [] => Some []
  | Some p :: rs' =>
      match collect rs' with
      | Some ps => Some (p :: ps)
      | None => None
      end
  | None :: _ => None
  end.

(** An iteration record: index, the call, and the evaluations consumed so
    far. *)
Record iteration : Type := MkIteration {
  index : nat;
  asked : call;
  consumed : nat
}.

Record result : Type := MkResult {
  outcome : status;
  submitted : list request;     (* every job submitted, in order *)
  trace : list iteration        (* last record first *)
}.

(** The evaluation budget allows [n] jobs in total ([None]: no budget). *)
Definition allows (max_evaluations : option nat) (n : nat) : bool :=
  match max_evaluations with
  | Some N => Nat.leb n N
  | None => true
  end.

(** Modelled from the spec: the driver's loop over the calls of the
    optimizer ([variational_algorithm] and the optimizers are not part of
    the source at hand), from the optimizer state [s] with [iterations]
    iterations left, the jobs submitted so far and the trace.  Each
    intercepted call is one iteration; the budgets are checked before its
    jobs are submitted, and no retry policy is configured. *)
Fixpoint run (max_evaluations : option nat) (iterations : nat) (s : OptState)
    (jobs : list request) (tr : list iteration) : result :=
  match ask s with
  | Stop => MkResult CONVERGED jobs tr
  | Ask c =>
      match iterations with
      | 0 => MkResult MAX_ITER jobs tr
      | S iterations' =>
          let jobs' := jobs ++ plan c in
          if allows max_evaluations (length jobs') then
            let tr' := MkIteration (length tr) c (length jobs') :: tr in
            match collect (map backend (plan c)) with
            | Some ps => run max_evaluations iterations' (tell s c ps) jobs' tr'
            | None => MkResult FAILED jobs' tr
            end
          else MkResult MAX_EVALS jobs tr
      end
  end.

(** A run from [INITIALIZED]: nothing submitted, empty trace. *)
Definition minimize (max_evaluations : option nat) (max_iterations : nat)
    (s0 : OptState) : result :=
  run max_evaluations max_iterations s0 [] [].

End Run.

Arguments Objective {Point}.
Arguments Gradient {Point}.
Arguments Batch {Point}.
Arguments Value {Point}.
Arguments Shifted {Point}.
Arguments Stop {Point}.
Arguments Ask {Point}.
Arguments plan {Point}.
Arguments collect {Payload}.
Arguments outcome {Point}.
Arguments submitted {Point}.
Arguments trace {Point}.
Arguments run {Point Payload OptState}.
Arguments minimize {Point Payload OptState}.

End Driver.


(** * Properties *)

(** ** Membership and duplicates, reflected *)

Lemma mem_In (x : string) (l : list string) : Text.mem x l = true <-> In x l.
Proof.
  unfold Text.mem. rewrite existsb_exists. split.
  - intros [y [Hy Heq]]. apply String.eqb_eq in Heq. now subst.
  - intro H. exists x. split; [assumption | apply String.eqb_refl].
Qed.

Lemma mem_false_not_In (x : string) (l : list string) :
  Text.mem x l = false -> ~ In x l.
Proof.
  intros Hf Hin. apply mem_In in Hin. congruence.
Qed.

Lemma nodupb_NoDup (l : list string) : Text.nodupb l = true -> NoDup l.
Proof.
  induction l as [|x l IH]; simpl; intro H.
  - constructor.
  - apply andb_prop in H. destruct H as [Hx Hl]. constructor.
    + apply mem_false_not_In. now apply negb_true_iff.
    + now apply IH.
Qed.

Lemma forallb_Forall {A : Type} (p : A -> bool) (l : list A) :
  forallb p l = true -> Forall (fun x => p x = true) l.
Proof.
  intro H. apply Forall_forall. now apply forallb_forall.
Qed.

(** ** The reader on the source *)

(** The statements of the file, with their line spans: the docstring, nine
    imports and the [__all__] assignment. *)
Lemma module_ast_spans :
  map (fun s => (Python.first_line s, Python.last_line s)) Manifest.module_ast =
  [(13, 299); (300, 300); (301, 301); (302, 302); (303, 303); (304, 316);
   (318, 325); (326, 326); (327, 327); (329, 342); (344, 384)].
Proof. vm_compute. reflexivity. Qed.

Lemma imported_value :
  Manifest.imported =
  ["AlgorithmJob"; "AlgorithmResult"; "VariationalAlgorithm"; "VariationalResult";
   "Grover"; "GroverResult"; "AmplificationProblem"; "AmplitudeAmplifier";
   "AmplitudeEstimator"; "AmplitudeEstimatorResult"; "AmplitudeEstimation";
   "AmplitudeEstimationResult"; "FasterAmplitudeEstimation";
   "FasterAmplitudeEstimationResult"; "IterativeAmplitudeEstimation";
   "IterativeAmplitudeEstimationResult"; "MaximumLikelihoodAmplitudeEstimation";
   "MaximumLikelihoodAmplitudeEstimationResult"; "EstimationProblem";
   "HamiltonianPhaseEstimation"; "HamiltonianPhaseEstimationResult";
   "PhaseEstimationScale"; "PhaseEstimation"; "PhaseEstimationResult";
   "IterativePhaseEstimation"; "AlgorithmError"; "estimate_observables";
   "ImaginaryTimeEvolver"; "RealTimeEvolver"; "TimeEvolutionProblem";
   "TimeEvolutionResult"; "PVQD"; "PVQDResult"; "SciPyImaginaryEvolver";
   "SciPyRealEvolver"; "VarQITE"; "VarQRTE"; "VarQTE"; "VarQTEResult"].
Proof. vm_compute. reflexivity. Qed.

Lemma all_length : List.length Manifest.__all__ = 39.
Proof. vm_compute. reflexivity. Qed.

(** ** The manifest *)

(** C1. The file has exactly 384 lines and parses to a docstring, a run of
    import statements and the assignment of [__all__], in this order and
    nothing else: no statement is a function or class definition or any
    other kind of statement, and every line outside these statements is
    blank or a comment (the license header). *)
Theorem C1_export_manifest :
  List.length Source.init_py = 384 /\
  Python.parse Source.init_py = Some Manifest.module_ast /\
  (exists doc imports assignment,
      Manifest.module_ast = doc :: imports ++ [assignment] /\
      Python.is_expr_string (Python.node doc) = true /\
      Forall (fun s => Python.is_import (Python.node s) = true) imports /\
      Python.is_all_assignment (Python.node assignment) = true) /\
  Forall (fun s => Python.is_def (Python.node s) = false) Manifest.module_ast /\
  Python.only_trivia_outside Manifest.module_ast Source.init_py = true.
Proof.
  split; [vm_compute; reflexivity|].
  split; [vm_compute; reflexivity|].
  split.
  - exists (hd (Python.Located 0 0 (Python.Other EmptyString)) Manifest.module_ast).
    exists (removelast (tl Manifest.module_ast)).
    exists (last Manifest.module_ast (Python.Located 0 0 (Python.Other EmptyString))).
    split; [vm_compute; reflexivity|].
    split; [vm_compute; reflexivity|].
    split; [|vm_compute; reflexivity].
    apply forallb_Forall with (p := fun s => Python.is_import (Python.node s)).
    vm_compute; reflexivity.
  - split; [|vm_compute; reflexivity].
    apply Forall_impl with (P := fun s => negb (Python.is_def (Python.node s)) = true).
    + intros s H. now apply negb_true_iff.
    + apply forallb_Forall with (p := fun s => negb (Python.is_def (Python.node s))).
      vm_compute; reflexivity.
Qed.

(** C9. Every string of [__all__] is a name bound by a module-level import
    of the file, and [__all__] has no duplicate. *)
Theorem C9_all_consistent :
  Forall (fun n => In n Manifest.imported) Manifest.__all__ /\
  NoDup Manifest.__all__.
Proof.
  split.
  - apply Forall_impl with (P := fun n => Text.mem n Manifest.imported = true).
    + intros n H. now apply mem_In.
    + apply forallb_Forall with (p := fun n => Text.mem n Manifest.imported).
      vm_compute; reflexivity.
  - apply nodupb_NoDup. vm_compute; reflexivity.
Qed.

(** C10. Each of VQE, QAOA, VQD, Eigensolver, NumPyEigensolver,
    MinimumEigensolver, NumPyMinimumEigensolver, TrotterQRTE and
    eval_observables is listed in an [autosummary] of the docstring, and
    QuantumInstance is referred to there as a class of the package; none of
    the ten is bound by a module-level import or listed in [__all__], none
    is an attribute of the package once its body has run, and so
    [from qiskit_algorithms import n] succeeds for none of them through the
    package root: it can only find a submodule of that name. *)
Theorem C10_documented_names_not_exported :
  Forall (fun n => Manifest.documented n = true) Manifest.listed_not_delivered /\
  Manifest.class_referenced Manifest.referenced_not_delivered = true /\
  Forall (fun n =>
            ~ In n Manifest.imported /\
            ~ In n Manifest.__all__ /\
            Python.getattr Manifest.package n = None /\
            forall submodules,
              Python.import_from submodules Manifest.package n = Text.mem n submodules)
         (Manifest.listed_not_delivered ++ [Manifest.referenced_not_delivered]).
Proof.
  split.
  { apply forallb_Forall with (p := Manifest.documented). vm_compute; reflexivity. }
  split; [vm_compute; reflexivity|].
  apply Forall_impl with
    (P := fun n => (negb (Text.mem n Manifest.imported)
                    && negb (Text.mem n Manifest.__all__)
                    && match Python.getattr Manifest.package n with
                       | None => true
                       | Some _ => false
                       end) = true).
  - intros n H.
    apply andb_prop in H. destruct H as [H Hattr].
    apply andb_prop in H. destruct H as [Himp Hall].
    apply negb_true_iff in Himp. apply negb_true_iff in Hall.
    assert (Hnone : Python.getattr Manifest.package n = None).
    { destruct (Python.getattr Manifest.package n); [discriminate | reflexivity]. }
    repeat split.
    + now apply mem_false_not_In.
    + now apply mem_false_not_In.
    + exact Hnone.
    + intro submodules. unfold Python.import_from. now rewrite Hnone.
  - apply forallb_Forall with
      (p := fun n => negb (Text.mem n Manifest.imported)
                     && negb (Text.mem n Manifest.__all__)
                     && match Python.getattr Manifest.package n with
                        | None => true
                        | Some _ => false
                        end).
    vm_compute; reflexivity.
Qed.

(** C2, at the names where the code departs from it.  The docstring lists
    all six of VQE, QAOA, VarQITE, VarQRTE, PVQD and AlgorithmJob, the
    amplitude and phase estimator sections and the [optimizers] subpackage;
    the package root exports VarQITE, VarQRTE, PVQD and AlgorithmJob, and
    exports neither VQE nor QAOA: no import binds them and [__all__] does
    not list them. *)
Theorem C2_VQE_QAOA_documented_not_exported :
  Forall (fun n => Manifest.documented n = true) Manifest.declared_algorithms /\
  Manifest.documented_in "Legacy Minimum Eigensolvers" "VQE" = true /\
  Manifest.documented_in "Legacy Minimum Eigensolvers" "QAOA" = true /\
  Manifest.documented_in "Amplitude Estimators" "AmplitudeEstimation" = true /\
  Manifest.documented_in "Phase Estimators" "PhaseEstimation" = true /\
  Manifest.documented_in "Optimizers" "optimizers" = true /\
  Forall (fun n => Manifest.exported n = true) ["VarQITE"; "VarQRTE"; "PVQD"; "AlgorithmJob"] /\
  Forall (fun n => Manifest.exported n = false /\
                   ~ In n Manifest.imported /\ ~ In n Manifest.__all__)
         ["VQE"; "QAOA"].
Proof.
  split.
  { apply forallb_Forall with (p := Manifest.documented). vm_compute; reflexivity. }
  do 5 (split; [vm_compute; reflexivity|]).
  split.
  { apply forallb_Forall with (p := Manifest.exported). vm_compute; reflexivity. }
  repeat constructor; try (vm_compute; reflexivity);
    apply mem_false_not_In; vm_compute; reflexivity.
Qed.

(** C3, refuted as stated: SubmissionError, the first error kind of the
    taxonomy, is not exported by the package root and is not among its
    exception types, so the six names are not all exposed. *)
Lemma C3_taxonomy_not_exported :
  In "SubmissionError" Manifest.taxonomy /\
  Manifest.exported "SubmissionError" = false /\
  ~ In "SubmissionError" Manifest.exception_types /\
  ~ Forall (fun n => Manifest.exported n = true /\ In n Manifest.exception_types)
           Manifest.taxonomy.
Proof.
  assert (Hexp : Manifest.exported "SubmissionError" = false) by (vm_compute; reflexivity).
  split; [left; reflexivity|].
  split; [exact Hexp|].
  split; [apply mem_false_not_In; vm_compute; reflexivity|].
  intro H. inversion H as [|n l [Hn _] _]; subst. congruence.
Qed.

(** C3, amended.  The package root exposes one exception type,
    AlgorithmError: it is the only name imported from [.exceptions], it is
    exported and it is the only entry of the Exceptions section of the
    docstring.  None of the six error kinds of the taxonomy is imported,
    listed in [__all__], bound in the package or documented. *)
Theorem C3_single_exception_type :
  Manifest.exception_types = ["AlgorithmError"] /\
  Manifest.exported "AlgorithmError" = true /\
  map Rst.entries (filter (fun s => String.eqb (Rst.title s) "Exceptions") Manifest.doc_sections)
    = [["AlgorithmError"]] /\
  Forall (fun n =>
            ~ In n Manifest.imported /\
            ~ In n Manifest.__all__ /\
            Python.getattr Manifest.package n = None /\
            Manifest.documented n = false)
         Manifest.taxonomy.
Proof.
  do 3 (split; [vm_compute; reflexivity|]).
  repeat constructor; try (vm_compute; reflexivity);
    apply mem_false_not_In; vm_compute; reflexivity.
Qed.

(** C4. For each of the eigensolver, time-evolver and minimum-eigensolver
    families, the docstring has, nested under the family's section, a
    "Primitive-based" group and a "Legacy" group, each listing at least one
    entry; the primitive-based group is described as based on the Qiskit
    Primitives and the legacy group as based on the QuantumInstance. *)
Theorem C4_legacy_and_primitive_groups :
  Forall (fun family =>
            exists p l,
              Manifest.group "Primitive-based" family = Some p /\
              Manifest.group "Legacy" family = Some l /\
              Rst.entries p <> [] /\
              Rst.entries l <> [] /\
              Rst.mentions "based on the Qiskit Primitives" p = true /\
              Rst.mentions "still based on the :class:`.QuantumInstance`" l = true)
         Manifest.families.
Proof.
  unfold Manifest.families.
  repeat constructor;
    (eexists; eexists;
     split; [lazy; reflexivity|];
     split; [lazy; reflexivity|];
     split; [lazy; discriminate|];
     split; [lazy; discriminate|];
     split; lazy; reflexivity).
Qed.
(** ** The evaluation job *)

Section JobFacts.

Variables Request Payload Failure : Type.

Abbreviation job := (Job.job Request Payload Failure).
Abbreviation event := (Job.event Payload Failure).

(** One event moves a job along an arrow of the diagram or not at all. *)
Lemma step_stays_or_follows_edge (j : job) (e : event) :
  Job.status (Job.step j e) = Job.status j \/
  Job.edge (Job.status j) (Job.status (Job.step j e)) = true.
Proof.
  unfold Job.step. destruct (Job.status j) eqn:Hs, e; simpl; rewrite ?Hs; auto.
Qed.

Lemma step_terminal (j : job) (e : event) :
  Job.terminal (Job.status j) = true -> Job.step j e = j.
Proof.
  unfold Job.step. destruct (Job.status j), e; simpl; intro H;
    reflexivity || discriminate.
Qed.

Lemma step_keeps_payload_invariant (j : job) (e : event) :
  Job.payload_iff_done j -> Job.payload_iff_done (Job.step j e).
Proof.
  unfold Job.payload_iff_done, Job.step. intros [H1 H2].
  destruct (Job.status j) eqn:Hs, e; simpl; rewrite ?Hs; split; intro H;
    try discriminate; try reflexivity; auto;
    specialize (H1 H); discriminate.
Qed.

Lemma run_keeps_payload_invariant (es : list event) :
  forall j : job, Job.payload_iff_done j -> Job.payload_iff_done (Job.run j es).
Proof.
  induction es as [|e es IH]; intros j Hj; simpl.
  - exact Hj.
  - apply IH. now apply step_keeps_payload_invariant.
Qed.

Lemma submit_payload_invariant (r : Request) :
  Job.payload_iff_done (Job.submit r : job).
Proof.
  unfold Job.payload_iff_done, Job.submit; simpl. split.
  - intro H. now contradiction H.
  - discriminate.
Qed.

(** The payload changes in one step exactly on [RUNNING -> DONE]. *)
Lemma step_attaches_payload (j : job) (e : event) :
  Job.payload_iff_done j ->
  (Job.payload (Job.step j e) <> Job.payload j <->
   Job.status j = Job.RUNNING /\ Job.status (Job.step j e) = Job.DONE).
Proof.
  unfold Job.payload_iff_done, Job.step. intros [H1 H2].
  destruct (Job.status j) eqn:Hs, e; simpl; rewrite ?Hs; split;
    try (intros [Ha Hb]; discriminate);
    try (intro H; now contradiction H).
  - intros _. split; reflexivity.
  - intros _ Heq.
    destruct (Job.payload j) eqn:Hp; [|discriminate].
    assert (Hne : Some p0 <> None) by discriminate.
    specialize (H1 Hne). discriminate.
Qed.

(** C6. Take any job reached from submission by any sequence of events, and
    any further event.  The job keeps its state or follows one arrow of
    [PENDING -> RUNNING -> {DONE, FAILED, CANCELLED}]; from a terminal state
    the event changes nothing of the job; the payload changes exactly when
    the step is [RUNNING -> DONE]; and the job carries a payload exactly
    when it is [DONE]. *)
Theorem C6_job_state_machine (r : Request) (es : list event) (e : event) :
  let j := Job.run (Job.submit r) es in
  let j' := Job.step j e in
  (Job.status j' = Job.status j \/ Job.edge (Job.status j) (Job.status j') = true) /\
  (Job.terminal (Job.status j) = true -> j' = j) /\
  (Job.payload j' <> Job.payload j <->
   Job.status j = Job.RUNNING /\ Job.status j' = Job.DONE) /\
  (Job.payload j <> None <-> Job.status j = Job.DONE).
Proof.
  intros j j'.
  assert (Hinv : Job.payload_iff_done j).
  { apply run_keeps_payload_invariant, submit_payload_invariant. }
  split; [apply step_stays_or_follows_edge|].
  split; [apply step_terminal|].
  split; [now apply step_attaches_payload | exact Hinv].
Qed.

End JobFacts.

(** A job that completes: submitted, started, completed with payload 7,
    then cancelled and failed too late.  The late events change nothing. *)
Lemma C6_job_state_machine_witness :
  let j := Job.run (Job.submit 1 : Job.job nat nat nat) [Job.Start; Job.Complete 7] in
  Job.terminal (Job.status j) = true /\
  Job.step j Job.Cancel = j /\
  Job.payload (Job.run j [Job.Cancel; Job.Fail 3]) = Some 7.
Proof.
  split; [reflexivity|].
  split; [|reflexivity].
  apply (C6_job_state_machine nat nat nat 1 [Job.Start; Job.Complete 7] Job.Cancel).
  reflexivity.
Defined.

(** ** The variational driver *)

Section DriverFacts.

Local Open Scope nat_scope.
Local Open Scope list_scope.

Variables Point Payload OptState : Type.
Variable dim : Point -> nat.
Variable ask : OptState -> Driver.decision Point.
Variable tell : OptState -> Driver.call Point -> list Payload -> OptState.
Variable backend : Driver.request Point -> option Payload.

Abbreviation run := (Driver.run dim ask tell backend).

(** A gradient call plans two evaluations per parameter. *)
Lemma plan_gradient_length (theta : Point) :
  length (Driver.plan dim (Driver.Gradient theta)) = 2 * dim theta.
Proof.
  unfold Driver.plan. generalize 0 at 1.
  induction (dim theta) as [|n IH]; intro start; simpl.
  - reflexivity.
  - rewrite IH. lia.
Qed.





End DriverFacts.


(** A gradient-only optimizer on two parameters that never converges, on a
    backend that always answers: with a budget of 5 evaluations it submits
    the 4 jobs of one gradient and stops with [MAX_EVALS]; with a budget of
    8 and 2 iterations it stops with [MAX_ITER] after exactly 8 jobs. *)
Example driver_stops_at_budget :
  let ask := fun theta : list nat => Driver.Ask (Driver.Gradient theta) in
  let tell := fun (theta : list nat) (_ : Driver.call (list nat)) (_ : list nat) => theta in
  let backend := fun _ : Driver.request (list nat) => Some 0 in
  let r5 := Driver.minimize (@List.length nat) ask tell backend (Some 5) 10 [1; 2] in
  let r8 := Driver.minimize (@List.length nat) ask tell backend (Some 8) 2 [1; 2] in
  Driver.outcome r5 = Driver.MAX_EVALS /\ List.length (Driver.submitted r5) = 4 /\
  Driver.outcome r8 = Driver.MAX_ITER /\ List.length (Driver.submitted r8) = 8 /\
  List.length (Driver.trace r8) = 2.
Proof. repeat split. Qed.

(** ** More on the manifest *)

Lemma forallb_mem_incl (l1 l2 : list string) :
  forallb (fun x => Text.mem x l2) l1 = true -> forall x, In x l1 -> In x l2.
Proof.
  intros H x Hx. rewrite forallb_forall in H. apply mem_In. apply H. exact Hx.
Qed.

(** Two duplicate-free lists with the same elements are permutations of
    each other; all four conditions are checked by computation. *)
Lemma nodupb_same_elements_Permutation (l1 l2 : list string) :
  Text.nodupb l1 = true -> Text.nodupb l2 = true ->
  forallb (fun x => Text.mem x l2) l1 = true ->
  forallb (fun x => Text.mem x l1) l2 = true ->
  Permutation l1 l2.
Proof.
  intros H1 H2 H12 H21. apply NoDup_Permutation.
  - now apply nodupb_NoDup.
  - now apply nodupb_NoDup.
  - intro x. split; now apply forallb_mem_incl.
Qed.

(** X1. The imported names and [__all__] are the same names, each once:
    [__all__] is a permutation of the names bound by the module-level
    imports, so no imported name is withheld from the export list and none
    is imported twice. *)
Theorem all_is_permutation_of_imports :
  NoDup Manifest.imported /\
  Permutation Manifest.imported Manifest.__all__.
Proof.
  split.
  - apply nodupb_NoDup. vm_compute; reflexivity.
  - apply nodupb_same_elements_Permutation; vm_compute; reflexivity.
Qed.

Lemma Some_inj {A : Type} (a b : A) : Some a = Some b -> a = b.
Proof. intro H. now injection H. Qed.

(** What [star_import] binds on the package, checked by computation: the
    names, and for each the import it comes from. *)
Lemma star_import_names :
  option_map (map fst) (Python.star_import Manifest.package) = Some Manifest.__all__.
Proof. vm_compute. reflexivity. Qed.

Lemma star_import_values :
  match Python.star_import Manifest.package with
  | Some bs =>
      forallb (fun b => match snd b with
                        | Python.VImported 1 module n =>
                            String.eqb n (fst b)
                            && Text.mem (fst b)
                                 (Python.imported_from 1 module Manifest.module_ast)
                        | _ => false
                        end) bs
  | None => false
  end = true.
Proof. vm_compute. reflexivity. Qed.

(** X2. [from qiskit_algorithms import *] succeeds on the package built by
    the module body: it binds the names of [__all__], in that order, and
    each of them to the object that an import statement of the file takes
    under that name from a sibling submodule; none resolves to a submodule,
    to the docstring or to a list. *)
Theorem star_import_resolves :
  exists bindings,
    Python.star_import Manifest.package = Some bindings /\
    map fst bindings = Manifest.__all__ /\
    Forall (fun b => exists module,
                       snd b = Python.VImported 1 module (fst b) /\
                       In (fst b) (Python.imported_from 1 module Manifest.module_ast))
           bindings.
Proof.
  pose proof star_import_names as Hnames.
  pose proof star_import_values as Hvalues.
  destruct (Python.star_import Manifest.package) as [bindings|]; [|discriminate].
  exists bindings.
  split; [reflexivity|].
  split; [apply Some_inj; exact Hnames|].
  clear Hnames.
  apply forallb_Forall in Hvalues.
  eapply Forall_impl; [|exact Hvalues].
  clear Hvalues bindings.
  intros [n v] H. cbn [fst snd] in H |- *.
  destruct v as [? | lv module n' | ? | ?]; try discriminate H.
  destruct lv as [|[|lv]]; try discriminate H.
  apply andb_prop in H. destruct H as [Hn Hin].
  apply String.eqb_eq in Hn. subst n'.
  exists module. split; [reflexivity | apply mem_In; exact Hin].
Qed.

(** X3. Among the classes the docstring lists (the capitalised
    [autosummary] entries), the package root exports exactly those that are
    not listed in a "Legacy" section: every entry of a Legacy section is
    left out, every other listed class is exported.  Of the listed
    functions and subpackages (the other entries) the root exports only
    [estimate_observables]. *)
Theorem documented_classes_exported_iff_not_legacy :
  Forall (fun n => Manifest.exported n = negb (Manifest.in_legacy_section n))
         (filter Manifest.is_capitalised Manifest.documented_names) /\
  Forall (fun n => Manifest.exported n = String.eqb n "estimate_observables")
         (filter (fun n => negb (Manifest.is_capitalised n)) Manifest.documented_names).
Proof.
  split.
  - apply Forall_impl with
      (P := fun n => Bool.eqb (Manifest.exported n)
                       (negb (Manifest.in_legacy_section n)) = true).
    + intros n H. now apply Bool.eqb_prop.
    + apply forallb_Forall with
        (p := fun n => Bool.eqb (Manifest.exported n) (negb (Manifest.in_legacy_section n))).
      vm_compute; reflexivity.
  - apply Forall_impl with
      (P := fun n => Bool.eqb (Manifest.exported n)
                       (String.eqb n "estimate_observables") = true).
    + intros n H. now apply Bool.eqb_prop.
    + apply forallb_Forall with
        (p := fun n => Bool.eqb (Manifest.exported n) (String.eqb n "estimate_observables")).
      vm_compute; reflexivity.
Qed.

(** X4. Five exported names appear in no [autosummary] of the docstring:
    AlgorithmResult, VariationalAlgorithm, VariationalResult, VarQTE and
    VarQTEResult; every other name of [__all__] is documented. *)
Theorem exported_but_undocumented :
  filter (fun n => negb (Manifest.documented n)) Manifest.__all__ =
  ["AlgorithmResult"; "VariationalAlgorithm"; "VariationalResult"; "VarQTE"; "VarQTEResult"].
Proof. vm_compute. reflexivity. Qed.

(** X5. The file has nine import statements; each is relative to the
    package itself (level 1) and names one sibling submodule, no two the
    same, and each such submodule is an attribute of the package once the
    body has run. *)
Theorem imports_are_relative_to_siblings :
  let sources := Python.import_sources Manifest.module_ast in
  List.length sources = 9 /\
  NoDup (map snd sources) /\
  Forall (fun src =>
            fst src = 1 /\
            snd src <> EmptyString /\
            Text.contains "." (snd src) = false /\
            Python.getattr Manifest.package (snd src) = Some (Python.VSubmodule (snd src)))
         sources.
Proof.
  intro sources. subst sources.
  split; [vm_compute; reflexivity|].
  split; [apply nodupb_NoDup; vm_compute; reflexivity|].
  apply Forall_impl with
    (P := fun src => (Nat.eqb (fst src) 1
                      && negb (String.eqb (snd src) EmptyString)
                      && negb (Text.contains "." (snd src))
                      && match Python.getattr Manifest.package (snd src) with
                         | Some (Python.VSubmodule m) => String.eqb m (snd src)
                         | _ => false
                         end) = true).
  - intros [lv md] H. cbn [fst snd] in H |- *.
    apply andb_prop in H. destruct H as [H Hattr].
    apply andb_prop in H. destruct H as [H Hdot].
    apply andb_prop in H. destruct H as [Hlv Hne].
    apply Nat.eqb_eq in Hlv. apply negb_true_iff in Hne, Hdot.
    apply String.eqb_neq in Hne.
    repeat split; try assumption.
    destruct (Python.getattr Manifest.package md) as [[? | ? ? ? | m | ?]|];
      try discriminate Hattr.
    apply String.eqb_eq in Hattr. subst m. reflexivity.
  - apply forallb_Forall with
      (p := fun src => Nat.eqb (fst src) 1
                       && negb (String.eqb (snd src) EmptyString)
                       && negb (Text.contains "." (snd src))
                       && match Python.getattr Manifest.package (snd src) with
                          | Some (Python.VSubmodule m) => String.eqb m (snd src)
                          | _ => false
                          end).
    vm_compute; reflexivity.
Qed.
